(** * Segmentation training module: models/segmentation_models.py

    A shallow embedding of [createDeepLabv3] and of the Lightning module
    [SegModel] (constructor, forward pass and the three step functions),
    followed by the properties established about them.

    Conventions of the embedding:
    - Python exceptions are values of [exn]; a computation that may raise
      returns a [result].
    - A Python [dict] with string keys is a [gmap string _].
    - The numerical framework (tensors, the loss kernel, the mean reduction,
      running a network on an input) is outside this repository; it is the
      interface [Torch], over which every definition is parametric.
    - Networks are described by the constructor calls that build them.
    - [self.log] and the invocation of the backbone are effects; they are
      recorded in a [World] that the step functions thread.  Running a
      backbone may change its own state (the buffers of its normalisation
      layers, the random generator its dropout layers draw from); that
      state is part of the world too. *)

From stdpp Require Import base strings gmap list.
From Stdlib Require Import ZArith Lia.

Local Open Scope string_scope.
Local Open Scope Z_scope.
Local Open Scope list_scope.

(** ** Python exceptions and results *)

Inductive exn : Type :=
| AssertionError (msg : string)
| KeyError (key : string)
| IndexError (msg : string)
| ValueError (msg : string)
| AttributeError (msg : string)
| NotImplementedError (msg : string)
| RuntimeError (msg : string).

Inductive result (A : Type) : Type :=
| Ok (a : A)
| Raise (e : exn).

Arguments Ok {A} a.
Arguments Raise {A} e.

Definition is_ok {A} (r : result A) : bool :=
  match r with Ok _ => true | Raise _ => false end.

(** The value of a result that is one. *)
Definition fst_ok {A} (r : result A) : option A :=
  match r with Ok a => Some a | Raise _ => None end.

(** ** Network descriptions

    The three backbones are objects of classes defined elsewhere
    ([models.UNet], torchvision).  A network is represented by the
    constructor call that produced it, together with the attributes the
    source overwrites afterwards. *)

(** [nn.Conv2d(in, out, kernel_size=, stride=, padding=, bias=)] *)
Record Conv2d : Type := mkConv2d {
  in_channels : Z;
  out_channels : Z;
  kernel_size : Z;
  stride : Z;
  padding : Z;
  bias : bool
}.

(** [DeepLabHead(in_channels, num_classes)] *)
Record DeepLabHead : Type := mkDeepLabHead {
  head_in_channels : Z;
  head_num_classes : Z
}.

(** The attributes of torchvision's DeepLabV3 object that the source
    touches: [model.backbone.conv1] and [model.classifier]. *)
Record DeepLabV3 : Type := mkDeepLabV3 {
  pretrained : bool;
  backbone_conv1 : Conv2d;
  classifier : DeepLabHead
}.

Inductive Net : Type :=
| UNet (num_classes num_layers features_start : Z) (bilinear : bool)
| UNET_ResNet18 (num_classes : Z)
| DeepLab (model : DeepLabV3).

(** [models.segmentation.deeplabv3_resnet101(pretrained=.., progress=..)]
    as torchvision builds it: a ResNet-101 stem convolution and a head for
    the 21 classes of the pretraining data set.  [progress] only controls
    the download progress bar. *)
Definition deeplabv3_resnet101 (pretrained_ progress : bool) : DeepLabV3 :=
  {| pretrained := pretrained_;
     backbone_conv1 := mkConv2d 3 64 7 2 3 false;
     classifier := mkDeepLabHead 2048 21 |}.

(** [createDeepLabv3()], lines 13-27.  It takes no argument. *)
Definition createDeepLabv3 (_ : unit) : DeepLabV3 :=
  let model := deeplabv3_resnet101 true true in
  (* model.backbone.conv1 = nn.Conv2d(3, 64, kernel_size=7, stride=2, padding=3, bias=False) *)
  let model := {| pretrained := pretrained model;
                  backbone_conv1 := mkConv2d 3 64 7 2 3 false;
                  classifier := classifier model |} in
  (* model.classifier = DeepLabHead(2048, num_classes=1) *)
  let model := {| pretrained := pretrained model;
                  backbone_conv1 := backbone_conv1 model;
                  classifier := mkDeepLabHead 2048 1 |} in
  model.

(** Number of output channels of the classification head of a DeepLab
    network ([None] for the other backbones, which have no such head). *)
Definition head_output_channels (n : Net) : option Z :=
  match n with
  | DeepLab d => Some (head_num_classes (classifier d))
  | _ => None
  end.

(** ** The framework interface *)

(** What a backbone returns when called: a tensor, or (torchvision's
    segmentation models) a dict of named tensors. *)
Inductive Value (T : Type) : Type :=
| VTensor (t : T)
| VDict (d : gmap string T).

Arguments VTensor {T} t.
Arguments VDict {T} d.

Class Torch : Type := {
  Tensor : Type;
  (** zero-dimensional tensors: losses and reduced metrics *)
  Scalar : Type;
  (** Python floats (the learning rate) *)
  PyFloat : Type;
  (** what a forward call of a backbone reads and may update besides its
      weights: the buffers of its layers (running statistics), its
      training/evaluation mode, the random generator of its dropout *)
  BackboneState : Type;
  (** [t.size()] *)
  shape : Tensor -> list nat;
  (** [t.is_floating_point()] *)
  is_floating_point : Tensor -> bool;
  (** [t.float()] *)
  to_float : Tensor -> Tensor;
  (** the kernel of [F.binary_cross_entropy_with_logits] with its default
      [reduction='mean'], on operands of equal size *)
  bce_with_logits_mean : Tensor -> Tensor -> Scalar;
  (** [torch.mean(v, dim=0)] of a one-dimensional tensor *)
  mean_dim0 : list Scalar -> Scalar;
  (** [net(x)]: running a network, with its current weights, on an
      input, in a given state; it yields the output and the state after
      the call *)
  call : Net -> BackboneState -> Tensor -> Value Tensor * BackboneState;
  (** the state of a network as its constructor leaves it *)
  new_state : Net -> BackboneState;
  (** the test [0.0 <= lr] of the optimizers *)
  lr_valid : PyFloat -> bool
}.

Section SegModel.

Context `{T : Torch}.

(** ** Framework operations with their failure modes *)

(** [d[key]] on a dict. *)
Definition dict_getitem {A} (d : gmap string A) (key : string) : result A :=
  match d !! key with
  | Some a => Ok a
  | None => Raise (KeyError key)
  end.

(** [v[key]] with a string key, on what a backbone returned: a dict is
    looked up, a tensor rejects a string index. *)
Definition value_getitem (v : Value Tensor) (key : string) : result (Value Tensor) :=
  match v with
  | VDict d =>
      match dict_getitem d key with
      | Ok t => Ok (VTensor t)
      | Raise e => Raise e
      end
  | VTensor _ => Raise (IndexError "invalid index of type str")
  end.

(** [F.binary_cross_entropy_with_logits(input, target)]: the sizes are
    compared first and a mismatch raises [ValueError]; a dict has no size.
    The kernel then works on floating-point operands only: logits of an
    integer type are not implemented, and a target of a non-floating type
    cannot take the floating-point result. *)
Definition binary_cross_entropy_with_logits
    (input : Value Tensor) (target : Tensor) : result Scalar :=
  match input with
  | VTensor t =>
      if decide (shape target = shape t)
      then
        if negb (is_floating_point t)
        then Raise (NotImplementedError "binary_cross_entropy_with_logits")
        else if negb (is_floating_point target)
        then Raise (RuntimeError "result type Float can't be cast to the desired output type")
        else Ok (bce_with_logits_mean t target)
      else Raise (ValueError "Target size must be the same as input size")
  | VDict _ => Raise (AttributeError "size")
  end.

(** The result of the overlap metric: a two-dimensional tensor of
    per-example, per-class scores, [batch_size] rows by [channels]
    columns. *)
Record Scores : Type := mkScores {
  batch_size : nat;
  channels : nat;
  score : nat -> nat -> Scalar
}.

(** Python index normalisation for a dimension of size [n]: indices in
    [[-n, n)] are valid, negative ones count from the end. *)
Definition normalize_index (i : Z) (n : nat) : option nat :=
  if (0 <=? i) && (i <? Z.of_nat n) then Some (Z.to_nat i)
  else if (i <? 0) && (- Z.of_nat n <=? i) then Some (Z.to_nat (i + Z.of_nat n))
  else None.

(** [s[:, i]]: column [i] of the scores, one entry per example. *)
Definition select_channel (s : Scores) (i : Z) : result (list Scalar) :=
  match normalize_index i (channels s) with
  | Some c => Ok (map (fun b => score s b c) (seq 0 (batch_size s)))
  | None => Raise (IndexError "index out of range")
  end.

(** [torch.mean(s[:, -2], dim=0)], the reduction used by the validation
    and test steps. *)
Definition mean_second_last (s : Scores) : result Scalar :=
  match select_channel s (-2) with
  | Ok col => Ok (mean_dim0 col)
  | Raise e => Raise e
  end.

(** ** The module object *)

Record SegModel : Type := mkSegModel {
  num_classes : Z;
  lr : PyFloat;
  model_name : string;
  num_layers : Z;
  features_start : Z;
  bilinear : bool;
  dice_coeff : Value Tensor -> Tensor -> Scores;
  net : Net
}.

(** *** [SegModel.__init__], lines 52-89

    [self.net] is unset on entry; it is threaded as an [option]. *)

(** Lines 73-76: the first conditional, with no [else]. *)
Definition init_unet_branch (model_name : string)
    (num_classes num_layers features_start : Z) (bilinear : bool)
    (net : option Net) : option Net :=
  if String.eqb model_name "unet"
  then Some (UNet num_classes num_layers features_start bilinear)
  else net.

(** Lines 78-85: the second conditional, an [if]/[elif]/[else] chain of
    its own. *)
Definition init_backbone_branch (model_name : string) (num_classes : Z)
    (net : option Net) : result (option Net) :=
  if String.eqb model_name "unet_resnet_backbone"
  then Ok (Some (UNET_ResNet18 num_classes))
  else if String.eqb model_name "deeplabv3"
  then Ok (Some (DeepLab (createDeepLabv3 tt)))
  else Raise (AssertionError "No model selected").

(** The constructor.  [save_hyperparameters] hands the arguments to the
    logger and leaves the attributes below as they are.  The keyword
    defaults of the signature are supplied by the caller.  The finished
    object always has its [net] attribute: each branch of the second
    conditional that returns has set it (see [init_backbone_branch_sets_net]). *)
Definition init (model_name : string)
    (seg_metric : Value Tensor -> Tensor -> Scores)
    (num_classes : Z) (lr : PyFloat)
    (num_layers features_start : Z) (bilinear : bool) : result SegModel :=
  let net := None in
  let net := init_unet_branch model_name num_classes num_layers features_start bilinear net in
  match init_backbone_branch model_name num_classes net with
  | Raise e => Raise e
  | Ok None => Raise (AttributeError "net")
  | Ok (Some n) =>
      Ok {| num_classes := num_classes;
            lr := lr;
            model_name := model_name;
            num_layers := num_layers;
            features_start := features_start;
            bilinear := bilinear;
            dice_coeff := seg_metric;
            net := n |}
  end.

(** ** Effects of the step functions

    A step reads the module object, calls the backbone and calls
    [self.log].  The world holds the module object, the state of its
    backbone, the measurements handed to the logger so far, and the inputs
    the backbone has been run on so far, both oldest first. *)

(** One call [self.log(name, value, prog_bar=, on_epoch=, sync_dist=)];
    an absent keyword takes Lightning's default ([False], [None],
    [False]). *)
Record LogEntry : Type := mkLogEntry {
  log_name : string;
  log_value : Scalar;
  log_prog_bar : bool;
  log_on_epoch : option bool;
  log_sync_dist : bool
}.

Record World : Type := mkWorld {
  module : SegModel;
  backbone_state : BackboneState;
  logged : list LogEntry;
  backbone_inputs : list Tensor
}.

Definition M (A : Type) : Type := World -> result A * World.

Definition ret {A} (a : A) : M A := fun w => (Ok a, w).

Definition bind {A B} (c : M A) (k : A -> M B) : M B :=
  fun w =>
    match c w with
    | (Ok a, w') => k a w'
    | (Raise e, w') => (Raise e, w')
    end.

Definition lift {A} (r : result A) : M A := fun w => (r, w).

Definition get_self : M SegModel := fun w => (Ok (module w), w).

Notation "'do' x <- c ; k" := (bind c (fun x => k))
  (at level 10, x name, c at level 100, k at level 200).

(** [self.log(...)] *)
Definition self_log (name : string) (value : Scalar)
    (prog_bar : bool) (on_epoch : option bool) (sync_dist : bool) : M unit :=
  fun w =>
    (Ok tt,
     {| module := module w;
        backbone_state := backbone_state w;
        logged := logged w ++ [mkLogEntry name value prog_bar on_epoch sync_dist];
        backbone_inputs := backbone_inputs w |}).

(** [self.net(x)]: the backbone is run in its current state, which the
    call may change. *)
Definition self_net (x : Tensor) : M (Value Tensor) :=
  fun w =>
    let '(out, state) := call (net (module w)) (backbone_state w) x in
    (Ok out,
     {| module := module w;
        backbone_state := state;
        logged := logged w;
        backbone_inputs := backbone_inputs w ++ [x] |}).

(** *** [SegModel.forward], lines 91-97 *)
Definition forward (x : Tensor) : M (Value Tensor) :=
  do self <- get_self ;
  if String.eqb (model_name self) "deeplabv3" then
    do out <- self_net x ;
    lift (value_getitem out "out")
  else
    self_net x.

(** *** [SegModel.training_step], lines 105-117 *)

(** The returned dict [{"loss": .., "log": .., "progress_bar": ..}]. *)
Record TrainingOutput : Type := mkTrainingOutput {
  loss : Scalar;
  log : gmap string Scalar;
  progress_bar : gmap string Scalar
}.

Definition training_step (batch : Tensor * Tensor) (batch_nb : nat) : M TrainingOutput :=
  let '(img, mask) := batch in
  let img := to_float img in
  do out <- forward img ;
  do loss <- lift (binary_cross_entropy_with_logits out mask) ;
  let log_dict : gmap string Scalar := {[ "Binary Cross Entropy Loss" := loss ]} in
  do _ <- self_log "Binary Cross Entropy Loss - Training" loss false None false ;
  ret {| loss := loss; log := log_dict; progress_bar := log_dict |}.

(** *** [SegModel.validation_step], lines 119-145 *)

(** The returned dict [{"val_loss": ..}]. *)
Record ValidationOutput : Type := mkValidationOutput {
  val_loss : Scalar
}.

Definition validation_step (batch : gmap string (Tensor * Tensor)) (batch_idx : nat)
    : M ValidationOutput :=
  do batch_source <- lift (dict_getitem batch "loader_val_source") ;
  do batch_target <- lift (dict_getitem batch "loader_target_test") ;
  let '(img, mask) := batch_source in
  do seg_out <- forward img ;
  do loss_val <- lift (binary_cross_entropy_with_logits seg_out mask) ;
  do self <- get_self ;
  let dice_coeff_values := dice_coeff self seg_out mask in
  do curr_mean_dice <- lift (mean_second_last dice_coeff_values) ;
  do _ <- self_log "Validation Loss - Source Data" loss_val true (Some true) false ;
  do _ <- self_log "Dice Score - Source Data" curr_mean_dice true (Some true) false ;
  let '(img, mask) := batch_target in
  do seg_out <- forward img ;
  do self <- get_self ;
  let dice_coeff_values := dice_coeff self seg_out mask in
  do curr_mean_dice <- lift (mean_second_last dice_coeff_values) ;
  do _ <- self_log "Dice Score on Target Test Data" curr_mean_dice true (Some true) true ;
  ret {| val_loss := loss_val |}.

(** *** [SegModel.test_step], lines 147-158 *)

(** The returned dict [{"curr_mean_dice": ..}]. *)
Record TestOutput : Type := mkTestOutput {
  curr_mean_dice : Scalar
}.

Definition test_step (batch : Tensor * Tensor) (batch_idx : nat) : M TestOutput :=
  let '(img, mask) := batch in
  do seg_out <- forward img ;
  do self <- get_self ;
  let dice_coeff_values := dice_coeff self seg_out mask in
  do curr_mean_dice <- lift (mean_second_last dice_coeff_values) ;
  do _ <- self_log "FINAL Dice Score on Target Test Data" curr_mean_dice true (Some true) true ;
  ret {| curr_mean_dice := curr_mean_dice |}.

(** A world in which nothing has been logged or run yet. *)
Definition fresh (m : SegModel) : World :=
  {| module := m; backbone_state := new_state (net m);
     logged := []; backbone_inputs := [] |}.

(** The state of a backbone after it has been run on [inputs], in order. *)
Definition state_after (n : Net) (s : BackboneState) (inputs : list Tensor)
    : BackboneState :=
  fold_left (fun s x => snd (call n s x)) inputs s.

(** What a step adds to a world: measurements and backbone inputs are
    appended, the backbone is in the state the runs on these inputs left
    it in, the module object is kept. *)
Definition extend (w : World) (entries : list LogEntry) (inputs : list Tensor) : World :=
  {| module := module w;
     backbone_state := state_after (net (module w)) (backbone_state w) inputs;
     logged := logged w ++ entries;
     backbone_inputs := backbone_inputs w ++ inputs |}.

(** *** [SegModel.configure_optimizers], lines 99-103 *)

(** The optimizer object [torch.optim.Adam] builds, described by the
    network whose parameters it is given and by its learning rate.  The
    other settings of Adam keep their defaults. *)
Record Adam : Type := mkAdam {
  adam_params : Net;
  adam_lr : PyFloat
}.

(** [torch.optim.Adam(params, lr=lr)]: the constructor rejects a learning
    rate that fails [0.0 <= lr]. *)
Definition torch_optim_Adam (params : Net) (lr : PyFloat) : result Adam :=
  if lr_valid lr
  then Ok (mkAdam params lr)
  else Raise (ValueError "Invalid learning rate").

(** The method returns the optimizer alone; the scheduler of the source is
    commented out. *)
Definition configure_optimizers : M Adam :=
  do self <- get_self ;
  do opt <- lift (torch_optim_Adam (net self) (lr self)) ;
  ret opt.

(** ** Vocabulary of the properties *)

(** A computation is [stable] when its outcome depends on the world only
    through the module object and the state of the backbone, and all it
    does to the world is to append measurements and to run the backbone. *)
Definition stable {A} (c : M A) : Prop :=
  forall m s, exists (r : result A) (entries : list LogEntry) (inputs : list Tensor),
    forall w, module w = m -> backbone_state w = s ->
              c w = (r, extend w entries inputs).

(** Running [c] in [w] and then again in the world the first run left
    behind gives the same outcome, the same measurements and the same
    backbone inputs both times. *)
Definition repeats {A} (c : M A) (w : World) : Prop :=
  exists r entries inputs,
    c w = (r, extend w entries inputs) /\
    c (extend w entries inputs) = (r, extend (extend w entries inputs) entries inputs).

(** The outcome of the forward pass, as a function of the module object
    and of the state of the backbone. *)
Definition forward_result (m : SegModel) (s : BackboneState) (x : Tensor)
    : result (Value Tensor) :=
  if String.eqb (model_name m) "deeplabv3"
  then value_getitem (fst (call (net m) s x)) "out"
  else Ok (fst (call (net m) s x)).

Definition log_entry (name : string) (v : Scalar) (pb : bool) (oe : option bool) (sd : bool)
    : LogEntry := mkLogEntry name v pb oe sd.

End SegModel.

(** ** A small concrete framework

    An instance of [Torch] on which the definitions above run: tensors
    are flat integer arrays with an element type and a size, a loss is an
    integer.  It is used to evaluate the module on explicit inputs. *)

Module Toy.

Inductive dtype : Type := Int64 | Float32.

Record tensor : Type := mkTensor {
  elem_type : dtype;
  dims : list nat;
  data : list Z
}.

Definition cast_float (t : tensor) : tensor :=
  {| elem_type := Float32; dims := dims t; data := data t |}.

Fixpoint sum_abs_diff (xs ys : list Z) : Z :=
  match xs, ys with
  | x :: xs', y :: ys' => Z.abs (x - y) + sum_abs_diff xs' ys'
  | _, _ => 0
  end.

Definition average (l : list Z) : Z :=
  fold_right Z.add 0 l / Z.of_nat (length l).

(** A stand-in for the loss kernel: the mean absolute difference. *)
Definition loss_kernel (input target : tensor) : Z :=
  sum_abs_diff (data input) (data target) / Z.of_nat (length (data input)).

Definition floating (t : tensor) : bool :=
  match elem_type t with Float32 => true | Int64 => false end.

(** The state of a network: its mode, and the number of forward passes it
    has made in training mode. *)
Record state : Type := mkState {
  training : bool;
  passes : nat
}.

(** A network is built in training mode. *)
Definition built (n : Net) : state := {| training := true; passes := 0 |}.

Definition evaluating : state := {| training := false; passes := 0 |}.

(** In training mode the output moves with the passes made so far, as the
    batch statistics and the dropout masks of a network do. *)
Definition perturb (s : state) (x : tensor) : tensor :=
  if training s
  then {| elem_type := elem_type x; dims := dims x;
          data := map (Z.add (Z.of_nat (passes s))) (data x) |}
  else x.

Definition advance (s : state) : state :=
  if training s then {| training := true; passes := S (passes s) |} else s.

(** Running a network: the identity on the data, up to the perturbation
    of the training mode.  The DeepLab network answers with a dict, as
    torchvision's segmentation models do. *)
Definition run (n : Net) (s : state) (x : tensor) : Value tensor * state :=
  let y := perturb s x in
  (match n with
   | DeepLab _ => VDict (<[ "out" := y ]> {[ "aux" := y ]})
   | _ => VTensor y
   end,
   advance s).

(** A learning rate, as mantissa and decimal exponent, is valid when its
    mantissa is not negative. *)
Definition rate_valid (r : Z * Z) : bool := 0 <=? fst r.

#[export] Instance torch : Torch := {|
  Tensor := tensor;
  Scalar := Z;
  PyFloat := Z * Z;
  BackboneState := state;
  shape := dims;
  is_floating_point := floating;
  to_float := cast_float;
  bce_with_logits_mean := loss_kernel;
  mean_dim0 := average;
  call := run;
  new_state := built;
  lr_valid := rate_valid
|}.

(** Scores of [b] examples over [c] classes; entry [(i, j)] is [i + j]. *)
Definition grid (b c : nat) : @Scores torch :=
  {| batch_size := b; channels := c;
     score := fun i j => Z.of_nat i + Z.of_nat j |}.

(** A metric with one column per class and one more for the background. *)
Definition metric_with_background (out : Value (@Tensor torch)) (mask : @Tensor torch)
    : @Scores torch :=
  grid (length (data (mask : tensor))) 2.

(** A metric with a single column, one per class when there is one
    class. *)
Definition metric_per_class (out : Value (@Tensor torch)) (mask : @Tensor torch)
    : @Scores torch :=
  grid (length (data (mask : tensor))) 1.

(** The learning rate 1e-3, as mantissa and decimal exponent. *)
Definition lr_default : @PyFloat torch := (1, -3).

Definition resnet_module (metric : Value (@Tensor torch) -> @Tensor torch -> @Scores torch)
    : @SegModel torch :=
  {| num_classes := 1; lr := lr_default; model_name := "unet_resnet_backbone";
     num_layers := 3; features_start := 64; bilinear := false;
     dice_coeff := metric; net := UNET_ResNet18 1 |}.

Definition deeplab_module (metric : Value (@Tensor torch) -> @Tensor torch -> @Scores torch)
    : @SegModel torch :=
  {| num_classes := 1; lr := lr_default; model_name := "deeplabv3";
     num_layers := 3; features_start := 64; bilinear := false;
     dice_coeff := metric; net := DeepLab (createDeepLabv3 tt) |}.

Definition image : @Tensor torch := mkTensor Int64 [2%nat] [3; -1].
Definition mask : @Tensor torch := mkTensor Float32 [2%nat] [1; 0].
Definition other_image : @Tensor torch := mkTensor Int64 [2%nat] [0; 5].
Definition other_mask : @Tensor torch := mkTensor Float32 [2%nat] [0; 1].
(** A mask whose size differs from that of the logits. *)
Definition flat_mask : @Tensor torch := mkTensor Float32 [1%nat; 2%nat] [1; 0].

Definition val_batch (m_src m_tgt : @Tensor torch)
    : gmap string (@Tensor torch * @Tensor torch) :=
  <[ "loader_val_source" := (image, m_src) ]>
    {[ "loader_target_test" := (other_image, m_tgt) ]}.

(** Floating-point images, and a validation batch of them. *)
Definition float_image : @Tensor torch := mkTensor Float32 [2%nat] [3; -1].
Definition float_other_image : @Tensor torch := mkTensor Float32 [2%nat] [0; 5].

Definition float_val_batch (m_src m_tgt : @Tensor torch)
    : gmap string (@Tensor torch * @Tensor torch) :=
  <[ "loader_val_source" := (float_image, m_src) ]>
    {[ "loader_target_test" := (float_other_image, m_tgt) ]}.

(** A mask of integer type, of the size of the images. *)
Definition integer_mask : @Tensor torch := mkTensor Int64 [2%nat] [1; 0].

(** The learning rate -1.0. *)
Definition lr_negative : @PyFloat torch := (-1, 0).

(** A world whose backbone is in evaluation mode. *)
Definition in_evaluation (m : @SegModel torch) : @World torch :=
  {| module := m; backbone_state := evaluating;
     logged := []; backbone_inputs := [] |}.

(** A metric with three columns whose second-to-last column is the
    first column of [metric_with_background]. *)
Definition metric_three_columns (out : Value (@Tensor torch)) (mask : @Tensor torch)
    : @Scores torch :=
  {| batch_size := length (data (mask : tensor)); channels := 3;
     score := fun i j => Z.of_nat i + Z.of_nat j - 1 |}.

(** An image and a mask of a batch without examples. *)
Definition empty_image : @Tensor torch := mkTensor Int64 [0%nat] [].
Definition empty_mask : @Tensor torch := mkTensor Float32 [0%nat] [].

End Toy.

(** * Properties *)

Section Properties.

Context `{T : Torch}.

Implicit Types (w : World) (m : SegModel) (x img mask : Tensor).

(** ** The effects of a computation *)

Lemma extend_nil w : extend w [] [] = w.
Proof. destruct w. unfold extend. simpl. by rewrite !app_nil_r. Qed.

Lemma state_after_app (n : Net) (s : BackboneState) (ins ins' : list Tensor) :
  state_after n (state_after n s ins) ins' = state_after n s (ins ++ ins').
Proof. unfold state_after. by rewrite fold_left_app. Qed.

Lemma extend_extend w es es' ins ins' :
  extend (extend w es ins) es' ins' = extend w (es ++ es') (ins ++ ins').
Proof. unfold extend. simpl. by rewrite !app_assoc, state_after_app. Qed.

Lemma module_extend w es ins : module (extend w es ins) = module w.
Proof. reflexivity. Qed.

Lemma backbone_state_extend w es ins :
  backbone_state (extend w es ins) =
    state_after (net (module w)) (backbone_state w) ins.
Proof. reflexivity. Qed.

Lemma stable_ret {A} (a : A) : stable (ret a).
Proof.
  intros m s. exists (Ok a), [], []. intros w _ _. unfold ret. by rewrite extend_nil.
Qed.

Lemma stable_lift {A} (r : result A) : stable (lift r).
Proof.
  intros m s. exists r, [], []. intros w _ _. unfold lift. by rewrite extend_nil.
Qed.

Lemma stable_get_self : stable get_self.
Proof.
  intros m s. exists (Ok m), [], []. intros w <- _. unfold get_self.
  by rewrite extend_nil.
Qed.

Lemma stable_self_log name v pb oe sd : stable (self_log name v pb oe sd).
Proof.
  intros m s. exists (Ok tt), [mkLogEntry name v pb oe sd], []. intros w _ _.
  unfold self_log, extend. simpl. by rewrite app_nil_r.
Qed.

Lemma self_net_run x w :
  self_net x w = (Ok (fst (call (net (module w)) (backbone_state w) x)), extend w [] [x]).
Proof.
  unfold self_net, extend, state_after. simpl.
  destruct (call (net (module w)) (backbone_state w) x) as [out s'].
  simpl. by rewrite app_nil_r.
Qed.

Lemma stable_self_net x : stable (self_net x).
Proof.
  intros m s. exists (Ok (fst (call (net m) s x))), [], [x]. intros w <- <-.
  apply self_net_run.
Qed.

Lemma stable_bind {A B} (c : M A) (k : A -> M B) :
  stable c -> (forall a, stable (k a)) -> stable (bind c k).
Proof.
  intros Hc Hk m s. destruct (Hc m s) as (r & es & ins & Hrun).
  destruct r as [a|e].
  - destruct (Hk a m (state_after (net m) s ins)) as (r' & es' & ins' & Hrun').
    exists r', (es ++ es'), (ins ++ ins'). intros w Hw Hs.
    unfold bind. rewrite (Hrun w Hw Hs).
    rewrite (Hrun' (extend w es ins))
      by (rewrite ?module_extend, ?backbone_state_extend; congruence).
    by rewrite extend_extend.
  - exists (Raise e), es, ins. intros w Hw Hs. unfold bind. by rewrite (Hrun w Hw Hs).
Qed.

Lemma stable_forward x : stable (forward x).
Proof.
  unfold forward. apply stable_bind; [apply stable_get_self|]. intros self.
  destruct (String.eqb _ _).
  - apply stable_bind; [apply stable_self_net|]. intros out. apply stable_lift.
  - apply stable_self_net.
Qed.

Ltac stable_step :=
  repeat first
    [ apply stable_ret | apply stable_lift | apply stable_get_self
    | apply stable_self_log | apply stable_forward
    | apply stable_bind; [|intros ?]
    | match goal with |- stable (let '(_, _) := ?p in _) => destruct p end ].

Lemma stable_training_step batch nb : stable (training_step batch nb).
Proof. unfold training_step. destruct batch. stable_step. Qed.

Lemma stable_validation_step batch idx : stable (validation_step batch idx).
Proof. unfold validation_step. stable_step. Qed.

Lemma stable_test_step batch idx : stable (test_step batch idx).
Proof. unfold test_step. destruct batch. stable_step. Qed.

(** Running a stable computation a second time, in the world the first
    run left behind, repeats the first run when the first run has left
    the backbone in the state it found it in. *)
Lemma stable_repeats {A} (c : M A) w :
  stable c -> backbone_state (snd (c w)) = backbone_state w -> repeats c w.
Proof.
  intros Hc. destruct (Hc (module w) (backbone_state w)) as (r & es & ins & Hrun).
  rewrite (Hrun w) by done. simpl. intros Hs.
  exists r, es, ins. split; [by apply Hrun|].
  apply Hrun; [reflexivity|]. by rewrite backbone_state_extend.
Qed.

Lemma stable_module {A} (c : M A) w : stable c -> module (snd (c w)) = module w.
Proof.
  intros Hc. destruct (Hc (module w) (backbone_state w)) as (r & es & ins & Hrun).
  by rewrite (Hrun w).
Qed.

(** ** The forward pass and the reductions, run *)

Lemma forward_run x w :
  forward x w =
    (if String.eqb (model_name (module w)) "deeplabv3"
     then value_getitem (fst (call (net (module w)) (backbone_state w) x)) "out"
     else Ok (fst (call (net (module w)) (backbone_state w) x)),
     extend w [] [x]).
Proof.
  unfold forward, bind, get_self, lift.
  destruct (String.eqb _ _); by rewrite self_net_run.
Qed.

Lemma normalize_index_second_last (n : nat) :
  (2 <= n)%nat -> normalize_index (-2) n = Some (n - 2)%nat.
Proof.
  intros Hn. unfold normalize_index.
  replace (0 <=? -2) with false by reflexivity. simpl.
  destruct (Z.leb_spec (- Z.of_nat n) (-2)); [|lia].
  f_equal. lia.
Qed.

Lemma normalize_index_too_short (n : nat) :
  (n < 2)%nat -> normalize_index (-2) n = None.
Proof.
  intros Hn. unfold normalize_index.
  replace (0 <=? -2) with false by reflexivity. simpl.
  destruct (Z.leb_spec (- Z.of_nat n) (-2)); [lia|reflexivity].
Qed.

Lemma mean_second_last_ok (s : Scores) :
  (2 <= channels s)%nat ->
  mean_second_last s =
    Ok (mean_dim0 (map (fun b => score s b (channels s - 2)%nat) (seq 0 (batch_size s)))).
Proof.
  intros Hs. unfold mean_second_last, select_channel.
  by rewrite normalize_index_second_last.
Qed.

Lemma mean_second_last_raises (s : Scores) :
  (channels s < 2)%nat ->
  mean_second_last s = Raise (IndexError "index out of range").
Proof.
  intros Hs. unfold mean_second_last, select_channel.
  by rewrite normalize_index_too_short.
Qed.

Lemma bce_floating_equal_shape (logits mask : Tensor) :
  shape mask = shape logits ->
  is_floating_point logits = true ->
  is_floating_point mask = true ->
  binary_cross_entropy_with_logits (VTensor logits) mask =
    Ok (bce_with_logits_mean logits mask).
Proof.
  intros Hs Hl Hm. unfold binary_cross_entropy_with_logits.
  by rewrite decide_True, Hl, Hm.
Qed.

Lemma bce_integer_logits (logits mask : Tensor) :
  shape mask = shape logits ->
  is_floating_point logits = false ->
  binary_cross_entropy_with_logits (VTensor logits) mask =
    Raise (NotImplementedError "binary_cross_entropy_with_logits").
Proof.
  intros Hs Hl. unfold binary_cross_entropy_with_logits.
  by rewrite decide_True, Hl.
Qed.

Lemma bce_integer_mask (logits mask : Tensor) :
  shape mask = shape logits ->
  is_floating_point logits = true ->
  is_floating_point mask = false ->
  binary_cross_entropy_with_logits (VTensor logits) mask =
    Raise (RuntimeError "result type Float can't be cast to the desired output type").
Proof.
  intros Hs Hl Hm. unfold binary_cross_entropy_with_logits.
  by rewrite decide_True, Hl, Hm.
Qed.

(** ** Construction *)

Implicit Types (metric : Value Tensor -> Tensor -> Scores) (nc nl fs : Z) (bl : bool).

Lemma init_unet_resnet_backbone metric nc (rate : PyFloat) nl fs bl :
  init "unet_resnet_backbone" metric nc rate nl fs bl =
    Ok (mkSegModel nc rate "unet_resnet_backbone" nl fs bl metric (UNET_ResNet18 nc)).
Proof. reflexivity. Qed.

Lemma init_deeplabv3 metric nc (rate : PyFloat) nl fs bl :
  init "deeplabv3" metric nc rate nl fs bl =
    Ok (mkSegModel nc rate "deeplabv3" nl fs bl metric (DeepLab (createDeepLabv3 tt))).
Proof. reflexivity. Qed.

(** Every identifier other than the two of the second conditional is
    rejected, whatever the first conditional did. *)
Lemma init_rejects (name : string) metric nc (rate : PyFloat) nl fs bl :
  name <> "unet_resnet_backbone" -> name <> "deeplabv3" ->
  init name metric nc rate nl fs bl = Raise (AssertionError "No model selected").
Proof.
  intros H1 H2. unfold init, init_backbone_branch.
  apply String.eqb_neq in H1. apply String.eqb_neq in H2.
  by rewrite H1, H2.
Qed.

Lemma init_backbone_branch_sets_net (name : string) nc (current o : option Net) :
  init_backbone_branch name nc current = Ok o -> is_Some o.
Proof.
  unfold init_backbone_branch.
  destruct (String.eqb name "unet_resnet_backbone"); [intros [= <-]; eauto|].
  destruct (String.eqb name "deeplabv3"); [intros [= <-]; eauto|discriminate].
Qed.

(** X1.  Construction succeeds for exactly the two identifiers of the
    second conditional, "unet_resnet_backbone" and "deeplabv3". *)
Lemma init_ok_iff (name : string) metric nc (rate : PyFloat) nl fs bl :
  is_ok (init name metric nc rate nl fs bl) = true <->
  name = "unet_resnet_backbone" \/ name = "deeplabv3".
Proof.
  split.
  - intros Hok.
    destruct (decide (name = "unet_resnet_backbone")) as [|H1]; [by left|].
    destruct (decide (name = "deeplabv3")) as [|H2]; [by right|].
    rewrite init_rejects in Hok by done. discriminate.
  - intros [-> | ->]; reflexivity.
Qed.

(** C1 (the code departs from the claim at "unet").  The first
    conditional of the constructor builds the encoder-decoder network for
    "unet", but it is not part of the if/elif/else chain that follows: the
    chain then finds neither of its two identifiers and reaches the
    assertion.  Construction with model_name = "unet" raises the
    assertion error "No model selected", for all other arguments. *)
Theorem init_unet_raises_assertion metric nc (rate : PyFloat) nl fs bl :
  init "unet" metric nc rate nl fs bl = Raise (AssertionError "No model selected").
Proof. reflexivity. Qed.

(** C2 (the code departs from the claim when num_classes is not 1).
    Construction with model_name = "deeplabv3" succeeds and records the
    configured class count, but the classification head of the network it
    builds has one output channel, whatever the class count. *)
Theorem init_deeplabv3_head_has_one_channel metric nc (rate : PyFloat) nl fs bl :
  exists m,
    init "deeplabv3" metric nc rate nl fs bl = Ok m /\
    num_classes m = nc /\
    head_output_channels (net m) = Some 1.
Proof. eexists. rewrite init_deeplabv3. repeat split. Qed.

(** C9.  For the identifiers "unet_resnet_backbone" and "deeplabv3" two
    constructions that differ only in num_layers, features_start and
    bilinear both succeed and hold the same backbone.  Only the
    conditional for "unet" hands these three parameters to a network
    constructor; for every other identifier it leaves the backbone
    attribute as it found it. *)
Theorem init_backbone_ignores_unet_parameters (name : string)
    metric nc (rate : PyFloat) nl fs bl nl' fs' bl' :
  name = "unet_resnet_backbone" \/ name = "deeplabv3" ->
  (exists m m',
      init name metric nc rate nl fs bl = Ok m /\
      init name metric nc rate nl' fs' bl' = Ok m' /\
      net m = net m') /\
  init_unet_branch "unet" nc nl fs bl None = Some (UNet nc nl fs bl) /\
  (forall current, init_unet_branch name nc nl fs bl current = current).
Proof.
  intros [-> | ->].
  - split; [|split]; [|reflexivity|reflexivity].
    do 2 eexists. rewrite !init_unet_resnet_backbone. repeat split.
  - split; [|split]; [|reflexivity|reflexivity].
    do 2 eexists. rewrite !init_deeplabv3. repeat split.
Qed.

(** ** The forward pass *)

(** C6.  When the module's model identifier is "deeplabv3" the forward
    pass returns the entry the backbone's output holds under the key
    "out" (the dict lookup raises KeyError when there is no such entry,
    and a tensor cannot be indexed by a string); for every other
    identifier it returns the backbone's output itself. *)
Theorem forward_extracts_out_for_deeplabv3_only x w :
  (model_name (module w) = "deeplabv3" ->
   match fst (call (net (module w)) (backbone_state w) x) with
   | VDict d =>
       match d !! "out" with
       | Some t => fst (forward x w) = Ok (VTensor t)
       | None => fst (forward x w) = Raise (KeyError "out")
       end
   | VTensor _ => fst (forward x w) = Raise (IndexError "invalid index of type str")
   end) /\
  (model_name (module w) <> "deeplabv3" ->
   fst (forward x w) = Ok (fst (call (net (module w)) (backbone_state w) x))).
Proof.
  rewrite forward_run. simpl. split.
  - intros ->. simpl.
    destruct (fst (call (net (module w)) (backbone_state w) x)) as [t|d];
      [reflexivity|].
    unfold value_getitem, dict_getitem. destruct (d !! "out"); reflexivity.
  - intros Hne. apply String.eqb_neq in Hne. by rewrite Hne.
Qed.

(** ** The step functions, run

    Each step is unfolded once into the case analysis it performs; the
    theorems below read their cases off these equations. *)

Lemma forward_run' x w :
  forward x w = (forward_result (module w) (backbone_state w) x, extend w [] [x]).
Proof. apply forward_run. Qed.

Lemma self_log_run name v pb oe sd w :
  self_log name v pb oe sd w = (Ok tt, extend w [log_entry name v pb oe sd] []).
Proof. unfold self_log, extend, log_entry. simpl. by rewrite app_nil_r. Qed.

Ltac run_logs :=
  unfold ret; rewrite ?self_log_run, ?extend_extend; cbn [app]; try reflexivity.

Lemma training_step_run img mask nb w :
  training_step (img, mask) nb w =
    match forward_result (module w) (backbone_state w) (to_float img) with
    | Raise e => (Raise e, extend w [] [to_float img])
    | Ok out =>
        match binary_cross_entropy_with_logits out mask with
        | Raise e => (Raise e, extend w [] [to_float img])
        | Ok l =>
            (Ok {| loss := l;
                   log := {[ "Binary Cross Entropy Loss" := l ]};
                   progress_bar := {[ "Binary Cross Entropy Loss" := l ]} |},
             extend w [log_entry "Binary Cross Entropy Loss - Training" l false None false]
                      [to_float img])
        end
    end.
Proof.
  unfold training_step, bind. rewrite forward_run'.
  destruct (forward_result _ _ _) as [out|e]; [|reflexivity].
  unfold lift. destruct (binary_cross_entropy_with_logits out mask) as [l|e]; [|reflexivity].
  run_logs.
Qed.

Lemma test_step_run img mask idx w :
  test_step (img, mask) idx w =
    match forward_result (module w) (backbone_state w) img with
    | Raise e => (Raise e, extend w [] [img])
    | Ok out =>
        match mean_second_last (dice_coeff (module w) out mask) with
        | Raise e => (Raise e, extend w [] [img])
        | Ok d =>
            (Ok {| curr_mean_dice := d |},
             extend w [log_entry "FINAL Dice Score on Target Test Data" d true (Some true) true]
                      [img])
        end
    end.
Proof.
  unfold test_step, bind. rewrite forward_run'.
  destruct (forward_result _ _ _) as [out|e]; [|reflexivity].
  unfold get_self, lift. rewrite module_extend.
  destruct (mean_second_last _) as [d|e]; [|reflexivity].
  run_logs.
Qed.

Lemma validation_step_run (batch : gmap string (Tensor * Tensor))
    img_s mask_s img_t mask_t idx w :
  batch !! "loader_val_source" = Some (img_s, mask_s) ->
  batch !! "loader_target_test" = Some (img_t, mask_t) ->
  validation_step batch idx w =
    match forward_result (module w) (backbone_state w) img_s with
    | Raise e => (Raise e, extend w [] [img_s])
    | Ok out_s =>
        match binary_cross_entropy_with_logits out_s mask_s with
        | Raise e => (Raise e, extend w [] [img_s])
        | Ok l =>
            match mean_second_last (dice_coeff (module w) out_s mask_s) with
            | Raise e => (Raise e, extend w [] [img_s])
            | Ok d_s =>
                let first_two :=
                  [log_entry "Validation Loss - Source Data" l true (Some true) false;
                   log_entry "Dice Score - Source Data" d_s true (Some true) false] in
                match forward_result (module w)
                        (backbone_state (extend w [] [img_s])) img_t with
                | Raise e => (Raise e, extend w first_two [img_s; img_t])
                | Ok out_t =>
                    match mean_second_last (dice_coeff (module w) out_t mask_t) with
                    | Raise e => (Raise e, extend w first_two [img_s; img_t])
                    | Ok d_t =>
                        (Ok {| val_loss := l |},
                         extend w
                           (first_two ++
                            [log_entry "Dice Score on Target Test Data" d_t true (Some true) true])
                           [img_s; img_t])
                    end
                end
            end
        end
    end.
Proof.
  intros Hs Ht. unfold validation_step, bind, lift, dict_getitem.
  rewrite Hs, Ht. rewrite forward_run'.
  destruct (forward_result (module w) (backbone_state w) img_s) as [out_s|e]; [|reflexivity].
  destruct (binary_cross_entropy_with_logits out_s mask_s) as [l|e]; [|reflexivity].
  unfold get_self. rewrite module_extend.
  destruct (mean_second_last (dice_coeff (module w) out_s mask_s)) as [d_s|e]; [|reflexivity].
  rewrite !self_log_run, !extend_extend. cbn [app].
  rewrite forward_run', extend_extend, module_extend. cbn [app].
  change (backbone_state (extend w _ [img_s]))
    with (backbone_state (extend w [] [img_s])).
  destruct (forward_result (module w) _ img_t) as [out_t|e]; [|reflexivity].
  rewrite module_extend.
  destruct (mean_second_last (dice_coeff (module w) out_t mask_t)) as [d_t|e];
    [|reflexivity].
  run_logs.
Qed.

Lemma forward_fst x w :
  fst (forward x w) = forward_result (module w) (backbone_state w) x.
Proof. by rewrite forward_run'. Qed.

Lemma forward_result_raises m (s : BackboneState) x e :
  forward_result m s x = Raise e -> e <> IndexError "index out of range".
Proof.
  unfold forward_result, value_getitem, dict_getitem.
  destruct (String.eqb _ _); [|discriminate].
  destruct (fst (call (net m) s x)) as [t|d]; [intros [= <-]; discriminate|].
  destruct (d !! "out"); [discriminate|]. intros [= <-]. discriminate.
Qed.

Lemma bce_raises (out : Value Tensor) mask e :
  binary_cross_entropy_with_logits out mask = Raise e ->
  e <> IndexError "index out of range".
Proof.
  unfold binary_cross_entropy_with_logits. destruct out as [t|d].
  - case_decide; [|intros [= <-]; discriminate].
    destruct (is_floating_point t); simpl; [|intros [= <-]; discriminate].
    destruct (is_floating_point mask); simpl; [discriminate|].
    intros [= <-]. discriminate.
  - intros [= <-]. discriminate.
Qed.

(** ** The training step *)

(** C3 (as amended).  For every batch (image, mask) on which the forward
    pass of the image cast to floating point yields a floating-point
    tensor, the mask being a floating-point tensor of the same size, the
    training step runs the backbone on the cast image, takes the loss to
    be the mean binary cross-entropy with logits of that tensor against
    the mask, emits the measurement "Binary Cross Entropy Loss -
    Training" equal to the loss, and returns the loss together with a
    logging payload whose only key is "Binary Cross Entropy Loss", bound
    to the loss. *)
Theorem training_step_loss_and_payload img mask (logits : Tensor) nb w :
  fst (forward (to_float img) w) = Ok (VTensor logits) ->
  shape mask = shape logits ->
  is_floating_point logits = true ->
  is_floating_point mask = true ->
  let l := bce_with_logits_mean logits mask in
  training_step (img, mask) nb w =
    (Ok {| loss := l;
           log := {[ "Binary Cross Entropy Loss" := l ]};
           progress_bar := {[ "Binary Cross Entropy Loss" := l ]} |},
     extend w
       [mkLogEntry "Binary Cross Entropy Loss - Training" l false None false]
       [to_float img]).
Proof.
  intros Hf Hs Hl Hm l. rewrite forward_fst in Hf.
  rewrite training_step_run, Hf, bce_floating_equal_shape by done. reflexivity.
Qed.

(** ** The validation step *)

(** C4 (as amended).  For every batch that is a mapping with entries
    "loader_val_source" and "loader_target_test", each an (image, mask)
    pair, such that the forward pass on the source image yields a
    floating-point tensor, the source mask being a floating-point tensor
    of the same size, the forward pass made next on the target image
    succeeds, and the metric's output has at least two class channels on
    both batches, the validation step emits exactly the three
    measurements "Validation Loss - Source Data" (the loss on the source
    batch), "Dice Score - Source Data" and "Dice Score on Target Test
    Data" (each the batch average of the second-to-last channel of the
    metric on the respective batch), in this order, and returns a
    structure holding the source validation loss. *)
Theorem validation_step_three_measurements
    (batch : gmap string (Tensor * Tensor)) img_s mask_s img_t mask_t
    (logits_s : Tensor) (out_t : Value Tensor) idx w :
  batch !! "loader_val_source" = Some (img_s, mask_s) ->
  batch !! "loader_target_test" = Some (img_t, mask_t) ->
  fst (forward img_s w) = Ok (VTensor logits_s) ->
  shape mask_s = shape logits_s ->
  is_floating_point logits_s = true ->
  is_floating_point mask_s = true ->
  fst (forward img_t (snd (forward img_s w))) = Ok out_t ->
  (2 <= channels (dice_coeff (module w) (VTensor logits_s) mask_s))%nat ->
  (2 <= channels (dice_coeff (module w) out_t mask_t))%nat ->
  let second_last_mean (s : Scores) :=
    mean_dim0 (map (fun b => score s b (channels s - 2)%nat) (seq 0 (batch_size s))) in
  let l := bce_with_logits_mean logits_s mask_s in
  let d_s := second_last_mean (dice_coeff (module w) (VTensor logits_s) mask_s) in
  let d_t := second_last_mean (dice_coeff (module w) out_t mask_t) in
  validation_step batch idx w =
    (Ok {| val_loss := l |},
     extend w
       [mkLogEntry "Validation Loss - Source Data" l true (Some true) false;
        mkLogEntry "Dice Score - Source Data" d_s true (Some true) false;
        mkLogEntry "Dice Score on Target Test Data" d_t true (Some true) true]
       [img_s; img_t]).
Proof.
  intros Hs Ht Hfs Hshape Hfl Hfm Hft Hcs Hct sl l d_s d_t.
  rewrite !forward_run' in Hft. cbn [fst snd] in Hft.
  rewrite module_extend in Hft. rewrite forward_fst in Hfs.
  rewrite (validation_step_run batch img_s mask_s img_t mask_t) by done.
  rewrite Hfs, bce_floating_equal_shape by done.
  rewrite mean_second_last_ok by done.
  cbv zeta. rewrite Hft. rewrite mean_second_last_ok by done. reflexivity.
Qed.

(** ** The test step *)

(** C5 (as amended).  For every batch (image, mask) on which the forward
    pass succeeds and the metric's output has at least two class
    channels, the test step returns a structure holding the average,
    across the batch dimension, of the second-to-last class channel of
    the metric applied to (forward output, mask), and emits that same
    value as the measurement "FINAL Dice Score on Target Test Data". *)
Theorem test_step_mean_of_second_last_channel img mask (out : Value Tensor) idx w :
  fst (forward img w) = Ok out ->
  (2 <= channels (dice_coeff (module w) out mask))%nat ->
  let s := dice_coeff (module w) out mask in
  let d := mean_dim0 (map (fun b => score s b (channels s - 2)%nat) (seq 0 (batch_size s))) in
  test_step (img, mask) idx w =
    (Ok {| curr_mean_dice := d |},
     extend w
       [mkLogEntry "FINAL Dice Score on Target Test Data" d true (Some true) true]
       [img]).
Proof.
  intros Hf Hc s d. rewrite forward_fst in Hf.
  rewrite test_step_run, Hf, mean_second_last_ok by done. reflexivity.
Qed.

(** ** Selecting the second-to-last channel *)

(** C7.  For a module with a class count of 1 whose metric always yields
    at least two class channels, selecting the second-to-last channel of
    the metric's output succeeds, and neither the test step nor the
    validation step ends, on any batch, in the index error of an index
    out of range. *)
Theorem second_last_channel_never_out_of_range w :
  num_classes (module w) = 1 ->
  (forall out mask, (2 <= channels (dice_coeff (module w) out mask))%nat) ->
  (forall out mask, exists col,
      select_channel (dice_coeff (module w) out mask) (-2) = Ok col) /\
  (forall batch idx,
      fst (test_step batch idx w) <> Raise (IndexError "index out of range")) /\
  (forall batch idx,
      fst (validation_step batch idx w) <> Raise (IndexError "index out of range")).
Proof.
  intros _ Hmetric. split; [|split].
  - intros out mask. unfold select_channel.
    rewrite normalize_index_second_last by apply Hmetric. eauto.
  - intros [img mask] idx. rewrite test_step_run.
    destruct (forward_result (module w) _ img) as [out|e] eqn:Hf; simpl.
    + rewrite mean_second_last_ok by apply Hmetric. discriminate.
    + intros [= ->]. by eapply forward_result_raises.
  - intros batch idx.
    destruct (batch !! "loader_val_source") as [[img_s mask_s]|] eqn:Hs; cycle 1.
    { unfold validation_step, bind, lift, dict_getitem. rewrite Hs. discriminate. }
    destruct (batch !! "loader_target_test") as [[img_t mask_t]|] eqn:Ht; cycle 1.
    { unfold validation_step, bind, lift, dict_getitem. rewrite Hs, Ht. discriminate. }
    rewrite (validation_step_run batch img_s mask_s img_t mask_t) by done.
    destruct (forward_result (module w) _ img_s) as [out_s|e] eqn:Hfs; simpl;
      [|intros [= ->]; by eapply forward_result_raises].
    destruct (binary_cross_entropy_with_logits out_s mask_s) as [l|e] eqn:Hb; simpl;
      [|intros [= ->]; by eapply bce_raises].
    rewrite mean_second_last_ok by apply Hmetric.
    destruct (forward_result (module w) _ img_t) as [out_t|e] eqn:Hft; simpl;
      [|intros [= ->]; by eapply forward_result_raises].
    rewrite mean_second_last_ok by apply Hmetric. discriminate.
Qed.

(** ** Repeating a step *)

(** C8 (as amended).  Each of the three step functions leaves the
    attributes of the module object as it found them; the one state of
    the module a step changes is the state of the backbone, which is the
    state the runs of the backbone on the step's inputs leave.  Whenever
    a call leaves the backbone in the state it found it in, a second call
    on the same inputs, in the world left by the first, yields the same
    outcome and emits the same measurements as the first. *)
Theorem steps_repeat_when_backbone_state_is_kept w :
  (forall batch nb,
      module (snd (training_step batch nb w)) = module w /\
      (backbone_state (snd (training_step batch nb w)) = backbone_state w ->
       repeats (training_step batch nb) w)) /\
  (forall batch idx,
      module (snd (validation_step batch idx w)) = module w /\
      (backbone_state (snd (validation_step batch idx w)) = backbone_state w ->
       repeats (validation_step batch idx) w)) /\
  (forall batch idx,
      module (snd (test_step batch idx w)) = module w /\
      (backbone_state (snd (test_step batch idx w)) = backbone_state w ->
       repeats (test_step batch idx) w)).
Proof.
  split; [|split]; intros batch i; split.
  - apply stable_module, stable_training_step.
  - apply stable_repeats, stable_training_step.
  - apply stable_module, stable_validation_step.
  - apply stable_repeats, stable_validation_step.
  - apply stable_module, stable_test_step.
  - apply stable_repeats, stable_test_step.
Qed.

(** ** What the backbone is run on *)

(** C10.  The training step runs the backbone on the image cast to
    floating point.  The test step runs it on the batch image itself.
    The validation step runs it on the source image itself and then, if
    it gets that far, on the target image itself; whenever it completes,
    it has run it on both, in this order. *)
Theorem only_training_step_casts_image w :
  (forall img mask nb,
      backbone_inputs (snd (training_step (img, mask) nb w)) =
        backbone_inputs w ++ [to_float img]) /\
  (forall img mask idx,
      backbone_inputs (snd (test_step (img, mask) idx w)) =
        backbone_inputs w ++ [img]) /\
  (forall (batch : gmap string (Tensor * Tensor)) img_s mask_s img_t mask_t idx,
      batch !! "loader_val_source" = Some (img_s, mask_s) ->
      batch !! "loader_target_test" = Some (img_t, mask_t) ->
      let run := validation_step batch idx w in
      (backbone_inputs (snd run) = backbone_inputs w ++ [img_s] \/
       backbone_inputs (snd run) = backbone_inputs w ++ [img_s; img_t]) /\
      (is_ok (fst run) = true ->
       backbone_inputs (snd run) = backbone_inputs w ++ [img_s; img_t])).
Proof.
  split; [|split].
  - intros img mask nb. rewrite training_step_run.
    destruct (forward_result _ _ _) as [out|e]; [|reflexivity].
    destruct (binary_cross_entropy_with_logits _ _); reflexivity.
  - intros img mask idx. rewrite test_step_run.
    destruct (forward_result _ _ _) as [out|e]; [|reflexivity].
    destruct (mean_second_last _); reflexivity.
  - intros batch img_s mask_s img_t mask_t idx Hs Ht run. subst run.
    rewrite (validation_step_run batch img_s mask_s img_t mask_t) by done.
    destruct (forward_result (module w) _ img_s) as [out_s|e];
      [|split; [by left|discriminate]].
    destruct (binary_cross_entropy_with_logits out_s mask_s) as [l|e];
      [|split; [by left|discriminate]].
    destruct (mean_second_last (dice_coeff (module w) out_s mask_s)) as [d_s|e];
      [|split; [by left|discriminate]].
    cbv zeta.
    destruct (forward_result (module w) _ img_t) as [out_t|e];
      [|split; [by right|discriminate]].
    destruct (mean_second_last (dice_coeff (module w) out_t mask_t)) as [d_t|e];
      split; (by right) || done || discriminate.
Qed.

(** * Further properties *)

(** ** Construction *)

(** X2.  A module that the constructor returns holds the arguments it was
    given, and its backbone is the one its identifier names: the DeepLab
    network for "deeplabv3", the residual U-Net otherwise. *)
Theorem init_records_arguments (name : string) metric nc (rate : PyFloat) nl fs bl m :
  init name metric nc rate nl fs bl = Ok m ->
  model_name m = name /\ num_classes m = nc /\ lr m = rate /\
  num_layers m = nl /\ features_start m = fs /\ bilinear m = bl /\
  dice_coeff m = metric /\
  net m = if String.eqb name "deeplabv3"
          then DeepLab (createDeepLabv3 tt)
          else UNET_ResNet18 nc.
Proof.
  intros Hinit.
  destruct (decide (name = "unet_resnet_backbone")) as [->|H1].
  { rewrite init_unet_resnet_backbone in Hinit. injection Hinit as <-. repeat split. }
  destruct (decide (name = "deeplabv3")) as [->|H2].
  { rewrite init_deeplabv3 in Hinit. injection Hinit as <-. repeat split. }
  rewrite init_rejects in Hinit by done. discriminate.
Qed.

(** ** The optimizer *)

Lemma configure_optimizers_run w :
  configure_optimizers w = (torch_optim_Adam (net (module w)) (lr (module w)), w).
Proof.
  unfold configure_optimizers, bind, get_self, lift, ret.
  destruct (torch_optim_Adam _ _); reflexivity.
Qed.

(** X3.  For a module that the constructor returned with a learning rate
    that passes Adam's test [0.0 <= lr], the optimizer is Adam over the
    parameters of the constructed backbone at that learning rate; with a
    learning rate that fails the test, which the constructor of the
    module accepts, configuring raises Adam's ValueError.  Either way
    nothing is emitted, the backbone is not run and the module is left as
    it is. *)
Theorem configure_optimizers_after_init
    (name : string) metric nc (rate : PyFloat) nl fs bl m w :
  init name metric nc rate nl fs bl = Ok m ->
  module w = m ->
  configure_optimizers w =
    (if lr_valid rate
     then Ok (mkAdam (if String.eqb name "deeplabv3"
                      then DeepLab (createDeepLabv3 tt)
                      else UNET_ResNet18 nc) rate)
     else Raise (ValueError "Invalid learning rate"),
     w).
Proof.
  intros Hinit Hw. rewrite configure_optimizers_run, Hw. unfold torch_optim_Adam.
  destruct (decide (name = "unet_resnet_backbone")) as [->|H1].
  { rewrite init_unet_resnet_backbone in Hinit. by injection Hinit as <-. }
  destruct (decide (name = "deeplabv3")) as [->|H2].
  { rewrite init_deeplabv3 in Hinit. by injection Hinit as <-. }
  rewrite init_rejects in Hinit by done. discriminate.
Qed.

(** ** The forward pass on the DeepLab path *)

(** X4.  With the identifier "deeplabv3" the forward pass returns the
    entry "out" of the dict the backbone answers with, whatever other
    entries the dict has; it raises KeyError "out" when the dict has no
    such entry and an index error when the backbone answers with a
    tensor.  In each case the backbone has been run once, on the input,
    and nothing has been emitted. *)
Theorem forward_deeplabv3_outcomes x w :
  model_name (module w) = "deeplabv3" ->
  snd (forward x w) = extend w [] [x] /\
  match fst (call (net (module w)) (backbone_state w) x) with
  | VDict d =>
      match d !! "out" with
      | Some t => fst (forward x w) = Ok (VTensor t)
      | None => fst (forward x w) = Raise (KeyError "out")
      end
  | VTensor _ => fst (forward x w) = Raise (IndexError "invalid index of type str")
  end.
Proof.
  intros Hname. rewrite forward_run'. split; [reflexivity|]. simpl.
  unfold forward_result. rewrite Hname. simpl.
  destruct (fst (call (net (module w)) (backbone_state w) x)) as [t|d];
    [reflexivity|].
  unfold value_getitem, dict_getitem. destruct (d !! "out"); reflexivity.
Qed.

(** ** The training step *)

(** X5.  The training step emits its measurement exactly when it returns:
    on return one measurement has been added, holding the returned loss,
    and the two payloads of the result are the same dict; when the step
    raises, nothing has been added. *)
Theorem training_step_emits_iff_returns img mask nb w :
  match fst (training_step (img, mask) nb w) with
  | Ok out =>
      logged (snd (training_step (img, mask) nb w)) =
        logged w ++
        [mkLogEntry "Binary Cross Entropy Loss - Training" (loss out) false None false] /\
      progress_bar out = log out
  | Raise _ => logged (snd (training_step (img, mask) nb w)) = logged w
  end.
Proof.
  rewrite training_step_run.
  destruct (forward_result _ _ _) as [out|e]; [|simpl; by rewrite app_nil_r].
  destruct (binary_cross_entropy_with_logits out mask) as [l|e];
    [|simpl; by rewrite app_nil_r].
  simpl. split; reflexivity.
Qed.

(** X6.  When the forward pass yields a tensor whose size differs from
    the mask's, the training step raises the ValueError of the loss; the
    backbone has been run on the cast image and nothing has been
    emitted. *)
Theorem training_step_shape_mismatch img mask (logits : Tensor) nb w :
  fst (forward (to_float img) w) = Ok (VTensor logits) ->
  shape mask <> shape logits ->
  training_step (img, mask) nb w =
    (Raise (ValueError "Target size must be the same as input size"),
     extend w [] [to_float img]).
Proof.
  intros Hf Hs. rewrite forward_fst in Hf. rewrite training_step_run, Hf.
  unfold binary_cross_entropy_with_logits. by rewrite decide_False.
Qed.

(** ** The validation step *)

Lemma validation_step_no_source (batch : gmap string (Tensor * Tensor)) idx w :
  batch !! "loader_val_source" = None ->
  validation_step batch idx w = (Raise (KeyError "loader_val_source"), w).
Proof.
  intros Hs. unfold validation_step, bind, lift, dict_getitem. by rewrite Hs.
Qed.

Lemma validation_step_no_target (batch : gmap string (Tensor * Tensor)) idx w :
  is_Some (batch !! "loader_val_source") ->
  batch !! "loader_target_test" = None ->
  validation_step batch idx w = (Raise (KeyError "loader_target_test"), w).
Proof.
  intros [p Hs] Ht. unfold validation_step, bind, lift, dict_getitem.
  by rewrite Hs, Ht.
Qed.

(** X7.  A batch without the entry "loader_val_source" makes the
    validation step raise KeyError for that key; a batch with it but
    without "loader_target_test" makes it raise KeyError for the latter.
    Both entries are fetched before anything else: in either case the
    backbone has not been run and nothing has been emitted. *)
Theorem validation_step_missing_entry (batch : gmap string (Tensor * Tensor)) idx w :
  (batch !! "loader_val_source" = None ->
   validation_step batch idx w = (Raise (KeyError "loader_val_source"), w)) /\
  (is_Some (batch !! "loader_val_source") ->
   batch !! "loader_target_test" = None ->
   validation_step batch idx w = (Raise (KeyError "loader_target_test"), w)).
Proof.
  split; [apply validation_step_no_source | apply validation_step_no_target].
Qed.

(** X8.  The validation step reads only the entries "loader_val_source"
    and "loader_target_test" of its batch, and not the batch index: two
    batches that agree on these two entries give the same outcome and the
    same effects. *)
Theorem validation_step_reads_two_entries
    (batch batch' : gmap string (Tensor * Tensor)) idx idx' w :
  batch !! "loader_val_source" = batch' !! "loader_val_source" ->
  batch !! "loader_target_test" = batch' !! "loader_target_test" ->
  validation_step batch idx w = validation_step batch' idx' w.
Proof.
  intros Hs Ht.
  destruct (batch !! "loader_val_source") as [[img_s mask_s]|] eqn:Es; cycle 1.
  { by rewrite !validation_step_no_source. }
  destruct (batch !! "loader_target_test") as [[img_t mask_t]|] eqn:Et; cycle 1.
  { rewrite !validation_step_no_target; rewrite <- ?Hs, ?Es; eauto. }
  by rewrite (validation_step_run batch img_s mask_s img_t mask_t),
             (validation_step_run batch' img_s mask_s img_t mask_t).
Qed.

(** X9.  The measurements the validation step emits are, by name and in
    order, all three of its measurements when it returns, and otherwise
    none of them or the two of the source batch: a failure on the target
    batch leaves the two source measurements emitted.  On return the
    first measurement holds the returned loss. *)
Theorem validation_step_emitted_names (batch : gmap string (Tensor * Tensor)) idx w :
  exists entries,
    logged (snd (validation_step batch idx w)) = logged w ++ entries /\
    match fst (validation_step batch idx w) with
    | Ok out =>
        map log_name entries =
          ["Validation Loss - Source Data"; "Dice Score - Source Data";
           "Dice Score on Target Test Data"] /\
        (log_value <$> head entries) = Some (val_loss out)
    | Raise _ =>
        map log_name entries = [] \/
        map log_name entries =
          ["Validation Loss - Source Data"; "Dice Score - Source Data"]
    end.
Proof.
  destruct (batch !! "loader_val_source") as [[img_s mask_s]|] eqn:Es; cycle 1.
  { rewrite validation_step_no_source by done. exists []. simpl.
    rewrite app_nil_r. eauto. }
  destruct (batch !! "loader_target_test") as [[img_t mask_t]|] eqn:Et; cycle 1.
  { rewrite validation_step_no_target by eauto. exists []. simpl.
    rewrite app_nil_r. eauto. }
  rewrite (validation_step_run batch img_s mask_s img_t mask_t) by done.
  destruct (forward_result (module w) _ img_s) as [out_s|e];
    [|exists []; simpl; rewrite app_nil_r; eauto].
  destruct (binary_cross_entropy_with_logits out_s mask_s) as [l|e];
    [|exists []; simpl; rewrite app_nil_r; eauto].
  destruct (mean_second_last (dice_coeff (module w) out_s mask_s)) as [d_s|e];
    [|exists []; simpl; rewrite app_nil_r; eauto].
  cbv zeta.
  destruct (forward_result (module w) _ img_t) as [out_t|e];
    [|eexists; split; [reflexivity|]; simpl; eauto].
  destruct (mean_second_last (dice_coeff (module w) out_t mask_t)) as [d_t|e];
    eexists; (split; [reflexivity|]); simpl; eauto.
Qed.

(** ** The test step *)

(** X10.  Once the forward pass has succeeded, the test step returns
    exactly when the metric's output has at least two class channels.
    With fewer channels it raises the index error of an index out of
    range, after running the backbone and without emitting anything. *)
Theorem test_step_returns_iff_two_channels img mask (out : Value Tensor) idx w :
  fst (forward img w) = Ok out ->
  (is_ok (fst (test_step (img, mask) idx w)) = true <->
   (2 <= channels (dice_coeff (module w) out mask))%nat) /\
  ((channels (dice_coeff (module w) out mask) < 2)%nat ->
   test_step (img, mask) idx w =
     (Raise (IndexError "index out of range"), extend w [] [img])).
Proof.
  intros Hf. rewrite forward_fst in Hf. rewrite test_step_run, Hf.
  destruct (le_lt_dec 2 (channels (dice_coeff (module w) out mask))) as [Hc|Hc].
  - rewrite mean_second_last_ok by done. simpl. split; [done|lia].
  - rewrite mean_second_last_raises by done. simpl. split; [|done].
    split; [discriminate|lia].
Qed.

(** X11.  The value the test step reports depends on the metric's output
    only through its second-to-last channel: two modules with the same
    identifier and backbone, the backbone in the same state, whose
    metrics yield as many examples, at least two channels each and the
    same second-to-last channel, return the same value on every batch. *)
Theorem test_step_reads_second_last_channel_only img mask idx w w' :
  model_name (module w) = model_name (module w') ->
  net (module w) = net (module w') ->
  backbone_state w = backbone_state w' ->
  (forall out,
      let s := dice_coeff (module w) out mask in
      let s' := dice_coeff (module w') out mask in
      batch_size s = batch_size s' /\
      (2 <= channels s)%nat /\ (2 <= channels s')%nat /\
      forall b, (b < batch_size s)%nat ->
                score s b (channels s - 2)%nat = score s' b (channels s' - 2)%nat) ->
  fst (test_step (img, mask) idx w) = fst (test_step (img, mask) idx w').
Proof.
  intros Hname Hnet Hstate Hmetric. rewrite !test_step_run.
  assert (Hf : forward_result (module w) (backbone_state w) img
               = forward_result (module w') (backbone_state w') img)
    by (unfold forward_result; by rewrite Hname, Hnet, Hstate).
  rewrite <- Hf.
  destruct (forward_result (module w) (backbone_state w) img) as [out|e];
    [|reflexivity].
  destruct (Hmetric out) as (Hb & Hc & Hc' & Hcol).
  rewrite !mean_second_last_ok by done. simpl. rewrite <- Hb.
  do 3 f_equal. apply map_ext_in. intros b Hin. apply Hcol.
  apply in_seq in Hin. lia.
Qed.

(** X12.  On an empty batch, for which the metric yields no example but
    at least two channels, the test step still returns: the value it
    reports is the mean of an empty column. *)
Theorem test_step_empty_batch img mask (out : Value Tensor) idx w :
  fst (forward img w) = Ok out ->
  batch_size (dice_coeff (module w) out mask) = 0%nat ->
  (2 <= channels (dice_coeff (module w) out mask))%nat ->
  fst (test_step (img, mask) idx w) = Ok {| curr_mean_dice := mean_dim0 [] |}.
Proof.
  intros Hf Hb Hc. rewrite forward_fst in Hf.
  rewrite test_step_run, Hf, mean_second_last_ok by done. by rewrite Hb.
Qed.

End Properties.

(** * The module on explicit inputs

    The statements above, applied to the concrete framework [Toy]. *)

Import Toy.

Lemma init_backbone_ignores_unet_parameters_witness :
  ("deeplabv3" = "unet_resnet_backbone" \/ "deeplabv3" = "deeplabv3") /\
  ((exists m m',
      init "deeplabv3" metric_with_background 1 lr_default 3 64 false = Ok m /\
      init "deeplabv3" metric_with_background 1 lr_default 5 32 true = Ok m' /\
      net m = net m') /\
   init_unet_branch "unet" 1 3 64 false None = Some (UNet 1 3 64 false) /\
   (forall current, init_unet_branch "deeplabv3" 1 3 64 false current = current)).
Proof.
  split; [by right|].
  apply (init_backbone_ignores_unet_parameters
           "deeplabv3" metric_with_background 1 lr_default 3 64 false 5 32 true).
  by right.
Defined.

(** C3, the claim as stated fails: on a batch whose mask has the size of
    the forward output the training step returns, and the logging
    payload it returns has no entry under "Binary Cross Entropy Loss -
    Training".  A mask of that size but of an integer type makes the
    loss raise. *)
Lemma training_step_payload_key_counterexample :
  let w := fresh (resnet_module metric_with_background) in
  fst (forward (to_float image) w) = Ok (VTensor (cast_float image)) /\
  shape mask = shape (cast_float image) /\
  ~ (exists out,
        fst (training_step (image, mask) 0 w) = Ok out /\
        log out = {[ "Binary Cross Entropy Loss - Training" := loss out ]}) /\
  shape integer_mask = shape (cast_float image) /\
  fst (training_step (image, integer_mask) 0 w) =
    Raise (RuntimeError "result type Float can't be cast to the desired output type").
Proof.
  intros w. split; [reflexivity|]. split; [reflexivity|].
  split; [|split; reflexivity].
  intros (out & Hout & Hlog).
  apply (f_equal (fun d : gmap string Z => d !! "Binary Cross Entropy Loss")) in Hlog.
  rewrite lookup_singleton_ne in Hlog by discriminate.
  rewrite training_step_run in Hout. vm_compute in Hout.
  injection Hout as <-. vm_compute in Hlog. discriminate.
Qed.

Lemma training_step_loss_and_payload_witness :
  let w := fresh (resnet_module metric_with_background) in
  fst (forward (to_float image) w) = Ok (VTensor (cast_float image)) /\
  shape mask = shape (cast_float image) /\
  is_floating_point (cast_float image) = true /\
  is_floating_point mask = true /\
  training_step (image, mask) 0 w =
    (Ok {| loss := 1;
           log := {[ "Binary Cross Entropy Loss" := 1 ]};
           progress_bar := {[ "Binary Cross Entropy Loss" := 1 ]} |},
     extend w
       [mkLogEntry "Binary Cross Entropy Loss - Training" 1 false None false]
       [cast_float image]).
Proof.
  intros w. repeat (split; [reflexivity|]).
  apply (training_step_loss_and_payload image mask (cast_float image) 0%nat w);
    reflexivity.
Defined.

(** C4, the claim as stated fails: a mapping with both entries whose
    source mask does not have the size of the logits makes the validation
    step raise before anything is emitted; so do a metric with a single
    class channel, and images of an integer type, which the validation
    step does not cast. *)
Lemma validation_step_raises_counterexample :
  let w := fresh (resnet_module metric_with_background) in
  let w1 := fresh (resnet_module metric_per_class) in
  float_val_batch flat_mask other_mask !! "loader_val_source"
    = Some (float_image, flat_mask) /\
  float_val_batch flat_mask other_mask !! "loader_target_test"
    = Some (float_other_image, other_mask) /\
  fst (validation_step (float_val_batch flat_mask other_mask) 0 w) =
    Raise (ValueError "Target size must be the same as input size") /\
  logged (snd (validation_step (float_val_batch flat_mask other_mask) 0 w)) = [] /\
  float_val_batch mask other_mask !! "loader_val_source" = Some (float_image, mask) /\
  float_val_batch mask other_mask !! "loader_target_test"
    = Some (float_other_image, other_mask) /\
  fst (validation_step (float_val_batch mask other_mask) 0 w1) =
    Raise (IndexError "index out of range") /\
  logged (snd (validation_step (float_val_batch mask other_mask) 0 w1)) = [] /\
  val_batch mask other_mask !! "loader_val_source" = Some (image, mask) /\
  val_batch mask other_mask !! "loader_target_test" = Some (other_image, other_mask) /\
  fst (validation_step (val_batch mask other_mask) 0 w) =
    Raise (NotImplementedError "binary_cross_entropy_with_logits") /\
  logged (snd (validation_step (val_batch mask other_mask) 0 w)) = [].
Proof. vm_compute. repeat split. Qed.

Lemma validation_step_three_measurements_witness :
  let w := fresh (deeplab_module metric_with_background) in
  let batch := float_val_batch mask other_mask in
  batch !! "loader_val_source" = Some (float_image, mask) /\
  batch !! "loader_target_test" = Some (float_other_image, other_mask) /\
  fst (forward float_image w) = Ok (VTensor float_image) /\
  shape mask = shape float_image /\
  is_floating_point float_image = true /\
  is_floating_point mask = true /\
  fst (forward float_other_image (snd (forward float_image w)))
    = Ok (VTensor (mkTensor Float32 [2%nat] [1; 6])) /\
  validation_step batch 7 w =
    (Ok {| val_loss := 1 |},
     extend w
       [mkLogEntry "Validation Loss - Source Data" 1 true (Some true) false;
        mkLogEntry "Dice Score - Source Data" 0 true (Some true) false;
        mkLogEntry "Dice Score on Target Test Data" 0 true (Some true) true]
       [float_image; float_other_image]).
Proof.
  intros w batch. repeat (split; [reflexivity|]).
  apply (validation_step_three_measurements
           batch float_image mask float_other_image other_mask
           float_image (VTensor (mkTensor Float32 [2%nat] [1; 6])) 7%nat w);
    try reflexivity; simpl; lia.
Defined.

(** C5, the claim as stated fails: with a metric that yields a single
    class channel the test step raises an index error and returns
    nothing. *)
Lemma test_step_raises_counterexample :
  let w := fresh (resnet_module metric_per_class) in
  fst (test_step (image, mask) 0 w) = Raise (IndexError "index out of range") /\
  logged (snd (test_step (image, mask) 0 w)) = [] /\
  ~ (exists out, fst (test_step (image, mask) 0 w) = Ok out).
Proof.
  intros w. split; [reflexivity|]. split; [reflexivity|].
  intros (out & Hout). discriminate Hout.
Qed.

Lemma test_step_mean_of_second_last_channel_witness :
  let w := fresh (deeplab_module metric_with_background) in
  fst (forward image w) = Ok (VTensor image) /\
  (2 <= channels (metric_with_background (VTensor image) mask))%nat /\
  test_step (image, mask) 0 w =
    (Ok {| curr_mean_dice := 0 |},
     extend w
       [mkLogEntry "FINAL Dice Score on Target Test Data" 0 true (Some true) true]
       [image]).
Proof.
  intros w. split; [reflexivity|]. split; [simpl; lia|].
  apply (test_step_mean_of_second_last_channel image mask (VTensor image) 0%nat w);
    [reflexivity | simpl; lia].
Defined.

Lemma second_last_channel_never_out_of_range_witness :
  let w := fresh (deeplab_module metric_with_background) in
  num_classes (module w) = 1 /\
  (forall out mask, (2 <= channels (dice_coeff (module w) out mask))%nat) /\
  fst (test_step (image, mask) 0 w) <> Raise (IndexError "index out of range") /\
  fst (validation_step (val_batch mask other_mask) 0 w)
    <> Raise (IndexError "index out of range").
Proof.
  intros w.
  assert (Hc : num_classes (module w) = 1) by reflexivity.
  assert (Hm : forall out mask, (2 <= channels (dice_coeff (module w) out mask))%nat)
    by (intros; simpl; lia).
  split; [exact Hc|]. split; [exact Hm|].
  destruct (second_last_channel_never_out_of_range w Hc Hm) as (_ & Ht & Hv).
  split; [apply Ht | apply Hv].
Defined.

Lemma only_training_step_casts_image_witness :
  let w := fresh (resnet_module metric_with_background) in
  let batch := float_val_batch mask other_mask in
  batch !! "loader_val_source" = Some (float_image, mask) /\
  batch !! "loader_target_test" = Some (float_other_image, other_mask) /\
  backbone_inputs (snd (training_step (image, mask) 0 w)) = [cast_float image] /\
  backbone_inputs (snd (test_step (image, mask) 0 w)) = [image] /\
  backbone_inputs (snd (validation_step batch 0 w)) = [float_image; float_other_image].
Proof.
  intros w batch.
  assert (Hs : batch !! "loader_val_source" = Some (float_image, mask))
    by reflexivity.
  assert (Ht : batch !! "loader_target_test" = Some (float_other_image, other_mask))
    by reflexivity.
  split; [exact Hs|]. split; [exact Ht|].
  destruct (only_training_step_casts_image w) as (Htrain & Htest & Hval).
  split; [apply (Htrain image mask 0%nat)|].
  split; [apply (Htest image mask 0%nat)|].
  apply (Hval batch float_image mask float_other_image other_mask 0%nat Hs Ht).
  reflexivity.
Defined.

Lemma forward_extracts_out_for_deeplabv3_only_witness :
  let w := fresh (deeplab_module metric_with_background) in
  let w' := fresh (resnet_module metric_with_background) in
  model_name (module w) = "deeplabv3" /\
  fst (forward image w) = Ok (VTensor image) /\
  model_name (module w') <> "deeplabv3" /\
  fst (forward image w') = Ok (VTensor image).
Proof.
  intros w w'.
  assert (Hname : model_name (module w) = "deeplabv3") by reflexivity.
  assert (Hname' : model_name (module w') <> "deeplabv3") by discriminate.
  split; [exact Hname|].
  split; [exact (proj1 (forward_extracts_out_for_deeplabv3_only image w) Hname)|].
  split; [exact Hname'|].
  exact (proj2 (forward_extracts_out_for_deeplabv3_only image w') Hname').
Defined.

(** C8, the claim as stated fails: a backbone in training mode changes its
    own state when it is run, and a second training step on the same
    batch, with the module object unchanged, returns another loss. *)
Lemma training_step_twice_counterexample :
  let w := fresh (resnet_module metric_with_background) in
  let w' := snd (training_step (other_image, other_mask) 0 w) in
  module w' = module w /\
  loss <$> fst_ok (fst (training_step (other_image, other_mask) 0 w)) = Some 2 /\
  loss <$> fst_ok (fst (training_step (other_image, other_mask) 0 w')) = Some 3 /\
  fst (training_step (other_image, other_mask) 0 w')
    <> fst (training_step (other_image, other_mask) 0 w).
Proof.
  intros w w'. split; [reflexivity|]. split; [reflexivity|]. split; [reflexivity|].
  intros Heq.
  apply (f_equal (fun r => loss <$> fst_ok r)) in Heq.
  vm_compute in Heq. discriminate.
Qed.

Lemma steps_repeat_when_backbone_state_is_kept_witness :
  let w := in_evaluation (resnet_module metric_with_background) in
  backbone_state (snd (training_step (image, mask) 0 w)) = backbone_state w /\
  repeats (training_step (image, mask) 0) w.
Proof.
  intros w.
  assert (Hs : backbone_state (snd (training_step (image, mask) 0 w)) = backbone_state w)
    by reflexivity.
  split; [exact Hs|].
  exact (proj2 (proj1 (steps_repeat_when_backbone_state_is_kept w) (image, mask) 0%nat) Hs).
Defined.

Lemma init_ok_iff_witness :
  is_ok (init "deeplabv3" metric_with_background 2 lr_default 3 64 false) = true.
Proof.
  apply (init_ok_iff "deeplabv3" metric_with_background 2 lr_default 3 64 false).
  by right.
Defined.

Lemma init_records_arguments_witness :
  init "deeplabv3" metric_with_background 2 lr_default 3 64 false
    = Ok (mkSegModel 2 lr_default "deeplabv3" 3 64 false metric_with_background
            (DeepLab (createDeepLabv3 tt))) /\
  num_classes (mkSegModel 2 lr_default "deeplabv3" 3 64 false metric_with_background
                 (DeepLab (createDeepLabv3 tt))) = 2.
Proof.
  assert (Hinit : init "deeplabv3" metric_with_background 2 lr_default 3 64 false
            = Ok (mkSegModel 2 lr_default "deeplabv3" 3 64 false metric_with_background
                    (DeepLab (createDeepLabv3 tt)))) by reflexivity.
  split; [exact Hinit|].
  apply (init_records_arguments _ _ _ _ _ _ _ _ Hinit).
Defined.

Lemma configure_optimizers_after_init_witness :
  let w := fresh (resnet_module metric_with_background) in
  let m' := mkSegModel 1 lr_negative "unet_resnet_backbone" 3 64 false
              metric_with_background (UNET_ResNet18 1) in
  init "unet_resnet_backbone" metric_with_background 1 lr_default 3 64 false
    = Ok (resnet_module metric_with_background) /\
  configure_optimizers w = (Ok (mkAdam (UNET_ResNet18 1) lr_default), w) /\
  init "unet_resnet_backbone" metric_with_background 1 lr_negative 3 64 false = Ok m' /\
  configure_optimizers (fresh m') = (Raise (ValueError "Invalid learning rate"), fresh m').
Proof.
  intros w m'.
  assert (Hinit : init "unet_resnet_backbone" metric_with_background 1 lr_default 3 64 false
            = Ok (resnet_module metric_with_background)) by reflexivity.
  assert (Hinit' : init "unet_resnet_backbone" metric_with_background 1 lr_negative 3 64 false
            = Ok m') by reflexivity.
  split; [exact Hinit|].
  split; [exact (configure_optimizers_after_init _ _ _ _ _ _ _ _ w Hinit eq_refl)|].
  split; [exact Hinit'|].
  exact (configure_optimizers_after_init _ _ _ _ _ _ _ _ (fresh m') Hinit' eq_refl).
Defined.

Lemma forward_deeplabv3_outcomes_witness :
  let w := fresh (deeplab_module metric_with_background) in
  model_name (module w) = "deeplabv3" /\
  snd (forward image w) = extend w [] [image] /\
  fst (forward image w) = Ok (VTensor image).
Proof.
  intros w.
  assert (Hname : model_name (module w) = "deeplabv3") by reflexivity.
  split; [exact Hname|].
  destruct (forward_deeplabv3_outcomes image w Hname) as [Hw Hr].
  split; [exact Hw | exact Hr].
Defined.

Lemma training_step_shape_mismatch_witness :
  let w := fresh (resnet_module metric_with_background) in
  fst (forward (to_float image) w) = Ok (VTensor (cast_float image)) /\
  shape flat_mask <> shape (cast_float image) /\
  training_step (image, flat_mask) 0 w =
    (Raise (ValueError "Target size must be the same as input size"),
     extend w [] [cast_float image]).
Proof.
  intros w.
  assert (Hs : shape flat_mask <> shape (cast_float image)) by discriminate.
  split; [reflexivity|]. split; [exact Hs|].
  apply (training_step_shape_mismatch image flat_mask (cast_float image) 0%nat w);
    [reflexivity | exact Hs].
Defined.

Lemma validation_step_missing_entry_witness :
  let w := fresh (resnet_module metric_with_background) in
  let only_source : gmap string (Tensor * Tensor) :=
    {[ "loader_val_source" := (image, mask) ]} in
  (∅ : gmap string (Tensor * Tensor)) !! "loader_val_source" = None /\
  validation_step ∅ 0 w = (Raise (KeyError "loader_val_source"), w) /\
  is_Some (only_source !! "loader_val_source") /\
  only_source !! "loader_target_test" = None /\
  validation_step only_source 0 w = (Raise (KeyError "loader_target_test"), w).
Proof.
  intros w only_source.
  assert (H0 : (∅ : gmap string (Tensor * Tensor)) !! "loader_val_source" = None)
    by reflexivity.
  assert (H1 : is_Some (only_source !! "loader_val_source"))
    by (exists (image, mask); reflexivity).
  assert (H2 : only_source !! "loader_target_test" = None) by reflexivity.
  split; [exact H0|].
  split; [apply (proj1 (validation_step_missing_entry ∅ 0%nat w) H0)|].
  split; [exact H1|]. split; [exact H2|].
  apply (proj2 (validation_step_missing_entry only_source 0%nat w) H1 H2).
Defined.

Lemma validation_step_reads_two_entries_witness :
  let w := fresh (resnet_module metric_with_background) in
  let batch := val_batch mask other_mask in
  let batch' := <[ "unused" := (image, flat_mask) ]> (val_batch mask other_mask) in
  batch !! "loader_val_source" = batch' !! "loader_val_source" /\
  batch !! "loader_target_test" = batch' !! "loader_target_test" /\
  validation_step batch 0 w = validation_step batch' 5 w.
Proof.
  intros w batch batch'.
  assert (Hs : batch !! "loader_val_source" = batch' !! "loader_val_source")
    by reflexivity.
  assert (Ht : batch !! "loader_target_test" = batch' !! "loader_target_test")
    by reflexivity.
  split; [exact Hs|]. split; [exact Ht|].
  apply (validation_step_reads_two_entries batch batch' 0%nat 5%nat w Hs Ht).
Defined.

Lemma test_step_returns_iff_two_channels_witness :
  let w := fresh (resnet_module metric_per_class) in
  fst (forward image w) = Ok (VTensor image) /\
  (channels (dice_coeff (module w) (VTensor image) mask) < 2)%nat /\
  test_step (image, mask) 0 w =
    (Raise (IndexError "index out of range"), extend w [] [image]).
Proof.
  intros w.
  assert (Hf : fst (forward image w) = Ok (VTensor image)) by reflexivity.
  assert (Hc : (channels (dice_coeff (module w) (VTensor image) mask) < 2)%nat)
    by (simpl; lia).
  split; [exact Hf|]. split; [exact Hc|].
  apply (proj2 (test_step_returns_iff_two_channels image mask (VTensor image) 0%nat w Hf) Hc).
Defined.

Lemma test_step_reads_second_last_channel_only_witness :
  fst (test_step (image, mask) 0 (fresh (resnet_module metric_with_background))) =
  fst (test_step (image, mask) 0 (fresh (resnet_module metric_three_columns))).
Proof.
  apply (test_step_reads_second_last_channel_only image mask 0%nat
           (fresh (resnet_module metric_with_background))
           (fresh (resnet_module metric_three_columns)));
    [reflexivity | reflexivity | reflexivity |].
  intros out. simpl. split; [reflexivity|]. split; [lia|]. split; [lia|].
  intros b _. lia.
Defined.

Lemma test_step_empty_batch_witness :
  let w := fresh (resnet_module metric_with_background) in
  fst (forward empty_image w) = Ok (VTensor empty_image) /\
  batch_size (dice_coeff (module w) (VTensor empty_image) empty_mask) = 0%nat /\
  (2 <= channels (dice_coeff (module w) (VTensor empty_image) empty_mask))%nat /\
  fst (test_step (empty_image, empty_mask) 0 w) = Ok {| curr_mean_dice := average [] |}.
Proof.
  intros w.
  split; [reflexivity|]. split; [reflexivity|]. split; [simpl; lia|].
  apply (test_step_empty_batch empty_image empty_mask (VTensor empty_image) 0%nat w);
    [reflexivity | reflexivity | simpl; lia].
Defined.
